(** * Portfolio bias metrics: aggregation and similarity engine

    A shallow embedding of the analysis lambdas of the brainvest backend
    (bias-analysis/sector.py, location.py, size.py, momentum.py,
    volatility.py, result-compiler.py and the sector preparer of
    bias-router.py), with the properties that the specification states
    about them.

    Numbers.  Python floats are modelled by exact numbers: rounding error,
    overflow, infinities and NaN are outside the model.  The sector and
    location code calls [math.sqrt], so its numbers are the reals [R]; the
    size, momentum and volatility code only adds, multiplies, divides and
    compares, so its numbers are the rationals [Q] and its definitions
    compute.

    Exceptions.  A function that can raise returns an [option] (or a sum
    with the error), and the raising operations -- division by zero,
    [math.sqrt] of a negative number, [float] of a malformed literal -- are
    partial.

    Holdings.  A holding is a JSON object read with [dict.get]; each lambda
    has its own record of the keys it reads.  The type of a field lists the
    values that the lambda handles: a [Py.field] may be absent, null or
    present, an [option] is absent or present. *)

From Stdlib Require Import Reals Psatz QArith Ascii String.
From Stdlib Require Floats.
From stdpp Require Import gmap strings list fin_maps.

(** ** Python values shared by the lambdas *)

Module Py.

(** A key of a JSON object: absent, present with [null] (Python's [None]),
    or present with a value. *)
Inductive field (A : Type) : Type :=
| Absent
| Null
| Present (a : A).
Arguments Absent {A}.
Arguments Null {A}.
Arguments Present {A} a.

#[global] Instance field_eq_dec {A} `{EqDecision A} : EqDecision (field A).
Proof. solve_decision. Defined.

(** [d.get(key)]; [None] stands for Python's [None]. *)
Definition get {A} (f : field A) : option A :=
  match f with
  | Present a => Some a
  | Absent | Null => None
  end.

(** [d.get(key, default)]: the default replaces an absent key only. *)
Definition get_default {A} (f : field A) (default : A) : option A :=
  match f with
  | Absent => Some default
  | Null => None
  | Present a => Some a
  end.

(** The field that holds a Python value stored under a key: the key is then
    present, with [null] for [None]. *)
Definition stored {A} (value : option A) : field A :=
  match value with
  | Some a => Present a
  | None => Null
  end.

Section Floats.
Local Open Scope R_scope.

(** [x == y] on floats. *)
Definition float_eqb (x y : R) : bool :=
  if Req_dec_T x y then true else false.

(** [x / y]: raises ZeroDivisionError ([None]) when [y == 0]. *)
Definition div (x y : R) : option R :=
  if float_eqb y 0 then None else Some (x / y).

(** [math.sqrt(x)]: raises ValueError ([None]) when [x < 0]. *)
Definition math_sqrt (x : R) : option R :=
  if Rlt_dec x 0 then None else Some (sqrt x).

(** [sum(xs)]: a left fold that starts from 0. *)
Definition sum (xs : list R) : R := foldl Rplus 0 xs.

(** Rounding to the nearest integer, ties to the even one. *)
Definition round_half_even (x : R) : Z :=
  let n := Int_part x in
  let f := frac_part x in
  if Rlt_dec f (1 / 2) then n
  else if Rlt_dec (1 / 2) f then (n + 1)%Z
  else if Z.even n then n else (n + 1)%Z.

(** [round(x, 2)]: the nearest multiple of 0.01, ties to even. *)
Definition round2 (x : R) : R := IZR (round_half_even (x * 100)) / 100.
End Floats.

Section Strings.
Local Open Scope string_scope.
Local Open Scope N_scope.

(** ASCII view of the [str] methods: bytes above 127 are left alone. *)
Definition upper_char (c : ascii) : ascii :=
  let n := N_of_ascii c in
  if (97 <=? n) && (n <=? 122) then ascii_of_N (n - 32) else c.

(** [s.upper()] *)
Fixpoint upper (s : string) : string :=
  match s with
  | EmptyString => EmptyString
  | String c s' => String (upper_char c) (upper s')
  end.

(** The ASCII characters that [str.strip] and [float] treat as blanks. *)
Definition is_space (c : ascii) : bool :=
  let n := N_of_ascii c in
  ((9 <=? n) && (n <=? 13)) || ((28 <=? n) && (n <=? 32)).

Fixpoint lstrip (s : string) : string :=
  match s with
  | EmptyString => EmptyString
  | String c s' => if is_space c then lstrip s' else s
  end.

Fixpoint rstrip (s : string) : string :=
  match s with
  | EmptyString => EmptyString
  | String c s' =>
      match rstrip s' with
      | EmptyString => if is_space c then EmptyString else String c EmptyString
      | r => String c r
      end
  end.

(** [s.strip()] *)
Definition strip (s : string) : string := rstrip (lstrip s).

(** [s.startswith(prefix)] *)
Fixpoint startswith (s prefix : string) {struct prefix} : bool :=
  match prefix with
  | EmptyString => true
  | String a prefix' =>
      match s with
      | EmptyString => false
      | String b s' => Ascii.eqb a b && startswith s' prefix'
      end
  end.

(** [s.replace(old, new)] for a non-empty [old]: occurrences are replaced
    from the left and do not overlap.  [skip] counts the characters of a
    match that remain to be dropped. *)
Fixpoint replace_from (skip : nat) (old new s : string) : string :=
  match s with
  | EmptyString => EmptyString
  | String c s' =>
      match skip with
      | S n => replace_from n old new s'
      | O =>
          if startswith s old
          then new ++ replace_from (Nat.pred (String.length old)) old new s'
          else String c (replace_from O old new s')
      end
  end.

Definition replace (old new s : string) : string := replace_from O old new s.

(** [s.endswith(suffix)] for a one-character suffix. *)
Fixpoint endswith (s : string) (suffix : ascii) : bool :=
  match s with
  | EmptyString => false
  | String c EmptyString => Ascii.eqb c suffix
  | String _ s' => endswith s' suffix
  end.

(** [s[:-1]] *)
Fixpoint drop_last (s : string) : string :=
  match s with
  | EmptyString => EmptyString
  | String _ EmptyString => EmptyString
  | String c s' => String c (drop_last s')
  end.
End Strings.

Section FloatLiterals.
Local Open Scope Z_scope.
Local Open Scope string_scope.

Definition is_digit (c : ascii) : bool :=
  let n := N_of_ascii c in N.leb 48 n && N.leb n 57.

Definition digit_value (c : ascii) : Z := (Z.of_N (N_of_ascii c) - 48)%Z.

(** The rest of a digit part: digits, each optionally preceded by one
    underscore.  Returns the value read so far, the number of digits and
    what is left. *)
Fixpoint more_digits (value : Z) (count : nat) (s : string) : Z * nat * string :=
  match s with
  | String c s' =>
      if is_digit c then more_digits (value * 10 + digit_value c) (S count) s'
      else if Ascii.eqb c "_" then
        match s' with
        | String d s'' =>
            if is_digit d
            then more_digits (value * 10 + digit_value d) (S count) s''
            else (value, count, s)
        | EmptyString => (value, count, s)
        end
      else (value, count, s)
  | EmptyString => (value, count, s)
  end.

Definition digit_part (s : string) : option (Z * nat * string) :=
  match s with
  | String c s' =>
      if is_digit c then Some (more_digits (digit_value c) 1 s') else None
  | EmptyString => None
  end.

Definition sign_part (s : string) : Z * string :=
  match s with
  | String "-" s' => (-1, s')
  | String "+" s' => (1, s')
  | _ => (1, s)
  end.

(** The mantissa [digits[.[digits]]] or [.digits]: its digits read as one
    integer and the number of digits after the point. *)
Definition mantissa_part (s : string) : option (Z * nat * string) :=
  match digit_part s with
  | Some (i, _, String "." r) =>
      match digit_part r with
      | Some _ => let '(m, n, r') := more_digits i 0 r in Some (m, n, r')
      | None => Some (i, O, r)
      end
  | Some (i, _, r) => Some (i, O, r)
  | None =>
      match s with
      | String "." r =>
          match digit_part r with
          | Some _ => let '(m, n, r') := more_digits 0 0 r in Some (m, n, r')
          | None => None
          end
      | _ => None
      end
  end.

(** The exponent [(e|E)[sign]digits], or none. *)
Definition exponent_part (s : string) : option (Z * string) :=
  match s with
  | String c r =>
      if Ascii.eqb c "e" || Ascii.eqb c "E" then
        let '(sg, r1) := sign_part r in
        match digit_part r1 with
        | Some (e, _, r2) => Some (sg * e, r2)
        | None => None
        end
      else Some (0, s)
  | EmptyString => Some (0, s)
  end.

(** [float(s)] on the decimal literals of finite numbers; [None] is
    ValueError.  The literals "inf", "infinity" and "nan" denote no number
    of this model and are rejected like any other word. *)
Definition float (s : string) : option Q :=
  let '(sg, r0) := sign_part (strip s) in
  match mantissa_part r0 with
  | Some (m, n, r1) =>
      match exponent_part r1 with
      | Some (e, EmptyString) =>
          Some (inject_Z (sg * m) * Qpower 10 (e - Z.of_nat n))%Q
      | _ => None
      end
  | None => None
  end.
End FloatLiterals.

End Py.

(** ** bias-analysis/sector.py *)

Module Sector.
Local Open Scope R_scope.

(** The key of an allocation is a sector name, or Python's [None] (here
    [None]) for a holding whose 'sector' is null. *)
Definition sp500_sectors : gmap (option string) R :=
  list_to_map
    [ (Some "Information Technology"%string, 27.5);
      (Some "Health Care"%string, 13.5);
      (Some "Financials"%string, 11.0);
      (Some "Consumer Discretionary"%string, 10.0);
      (Some "Communication Services"%string, 9.0);
      (Some "Industrials"%string, 8.5);
      (Some "Consumer Staples"%string, 7.0);
      (Some "Energy"%string, 4.0);
      (Some "Utilities"%string, 3.5);
      (Some "Real Estate"%string, 3.5);
      (Some "Materials"%string, 2.5) ].

Section Allocations.
Context `{Countable K}.

(** [d.values()] *)
Definition values (d : gmap K R) : list R := (map_to_list d).*2.

(** [{k: f(k, v) for k, v in d.items()}] with a body that may raise. *)
Definition dict_comprehension (f : K → R → option R) (d : gmap K R)
  : option (gmap K R) :=
  list_to_map <$>
    mapM (λ item : K * R, v ← f item.1 item.2; Some (item.1, v))
         (map_to_list d).

Definition normalize_sector_allocations (sectors : gmap K R)
  : option (gmap K R) :=
  let total := Py.sum (values sectors) in
  if Py.float_eqb total 0 then Some sectors
  else
    dict_comprehension
      (λ sector percentage, q ← Py.div percentage total; Some (q * 100))
      sectors.

(** [[d.get(sector, 0.0) for sector in all_sectors]] *)
Definition vector_of (d : gmap K R) (all_sectors : gset K) : list R :=
  (λ sector, default 0 (d !! sector)) <$> elements all_sectors.

Definition calculate_similarity (sp500 user : gmap K R) : option R :=
  sp500_normalized ← normalize_sector_allocations sp500;
  user_normalized ← normalize_sector_allocations user;
  let all_sectors := dom sp500_normalized ∪ dom user_normalized in
  let sp500_vector := vector_of sp500_normalized all_sectors in
  let user_vector := vector_of user_normalized all_sectors in
  let dot_product := Py.sum (zip_with Rmult sp500_vector user_vector) in
  magnitude_sp500 ← Py.math_sqrt (Py.sum ((λ a, a * a) <$> sp500_vector));
  magnitude_user ← Py.math_sqrt (Py.sum ((λ b, b * b) <$> user_vector));
  if Py.float_eqb magnitude_sp500 0 || Py.float_eqb magnitude_user 0
  then Some 0
  else
    cosine_similarity ← Py.div dot_product (magnitude_sp500 * magnitude_user);
    Some (Py.round2 (cosine_similarity * 100)).
End Allocations.

(** The keys of a holding as the sector preparer writes them.  The
    percentage is absent or a number: a null percentage makes the handler
    fail with a TypeError at the first addition that meets it. *)
Record holding := {
  symbol : Py.field string;
  portfolio_percentage : option R;
  sector : Py.field string
}.

Definition process_holdings_to_sectors (holdings : list holding)
  : gmap (option string) R :=
  foldl
    (λ sector_allocations holding,
       let sector := Py.get_default (sector holding) "Unknown"%string in
       let percentage := default 0 (portfolio_percentage holding) in
       match sector_allocations !! sector with
       | Some allocated => <[sector := allocated + percentage]> sector_allocations
       | None => <[sector := percentage]> sector_allocations
       end)
    ∅ holdings.

End Sector.

(** ** bias-analysis/location.py *)

Module Location.
Local Open Scope R_scope.

(** The fields of a holding that the location aggregation reads. *)
Record holding := {
  country : Py.field string;
  city : Py.field string;
  state : Py.field string;
  portfolio_percentage : Py.field R
}.

(** [not s] on a string. *)
Definition is_empty (s : string) : bool :=
  match s with
  | EmptyString => true
  | String _ _ => false
  end.

(** [holding.get(key, '').strip() if holding.get(key) else ''] *)
Definition stripped (f : Py.field string) : string :=
  match Py.get f with
  | Some s => if is_empty s then EmptyString else Py.strip s
  | None => EmptyString
  end.

(** One turn of the loop over the holdings, on the pair
    [(location_allocations, total_percentage)]. *)
Definition process_holding (acc : gmap string R * R) (holding : holding)
  : gmap string R * R :=
  let '(location_allocations, total_percentage) := acc in
  let country := stripped (country holding) in
  let city := stripped (city holding) in
  let state := stripped (state holding) in
  match Py.get_default (portfolio_percentage holding) 0 with
  | None => acc (* [None <= 0] raises TypeError; the except clause continues *)
  | Some percentage =>
      if Rle_dec percentage 0 then acc
      else if is_empty country && is_empty city && is_empty state then acc
      else
        let total_percentage := total_percentage + percentage in
        let country := if is_empty country then "Unknown"%string else country in
        let location :=
          if negb (is_empty state) then (state ++ ", " ++ country)%string
          else if negb (is_empty city) then (city ++ ", " ++ country)%string
          else country in
        match location_allocations !! location with
        | Some allocated =>
            (<[location := allocated + percentage]> location_allocations,
             total_percentage)
        | None =>
            (<[location := percentage]> location_allocations, total_percentage)
        end
  end.

Definition accumulate (holdings : list holding) : gmap string R * R :=
  foldl process_holding (∅, 0) holdings.

Definition process_holdings_to_locations (holdings : list holding)
  : option (gmap string R) :=
  let '(location_allocations, total_percentage) := accumulate holdings in
  if Rlt_dec 0 total_percentage then
    Sector.dict_comprehension
      (λ location percentage,
         q ← Py.div percentage total_percentage; Some (q * 100))
      location_allocations
  else Some location_allocations.

End Location.

(** ** bias-router.py: the sector preparer *)

Module BiasRouter.
Local Open Scope R_scope.

(** The 'analysis' object that the enrichment step adds to a holding. *)
Record analysis_data := {
  asset_type : Py.field string;
  sector : Py.field string
}.

(** A holding of the enriched portfolio document. *)
Record holding := {
  symbol : Py.field string;
  portfolio_percentage : option R;
  analysis : option analysis_data
}.

(** [{}] *)
Definition no_analysis : analysis_data :=
  {| asset_type := Py.Absent; sector := Py.Absent |}.

Definition prepare_sector_data (holdings : list holding) : list Sector.holding :=
  foldl
    (λ filtered_holdings holding,
       let analysis := default no_analysis (analysis holding) in
       let asset_type := Py.get (asset_type analysis) in
       if decide (asset_type = Some "ETF"%string) then filtered_holdings
       else
         filtered_holdings ++
         [ {| Sector.symbol := Py.stored (Py.get (symbol holding));
              Sector.portfolio_percentage :=
                Some (default 0 (portfolio_percentage holding));
              Sector.sector := Py.stored (Py.get (sector analysis)) |} ])
    [] holdings.

End BiasRouter.

(** ** bias-analysis/size.py *)

Module Size.
Local Open Scope Q_scope.

(** [x < y] and [x <= y] on floats. *)
Definition ltb (x y : Q) : bool := negb (Qle_bool y x).
Definition leb (x y : Q) : bool := Qle_bool x y.

Definition parse_market_cap (market_cap_str : option string) : Q :=
  match market_cap_str with
  | None | Some EmptyString => 0
  | Some market_cap_str =>
      let market_cap_str :=
        Py.strip (Py.replace "," "" (Py.upper market_cap_str)) in
      let '(multiplier, market_cap_str) :=
        if Py.endswith market_cap_str "T"
        then (1000000000000, Py.drop_last market_cap_str)
        else if Py.endswith market_cap_str "B"
        then (1000000000, Py.drop_last market_cap_str)
        else if Py.endswith market_cap_str "M"
        then (1000000, Py.drop_last market_cap_str)
        else (1, market_cap_str) in
      match Py.float market_cap_str with
      | Some number => number * multiplier
      | None => 0
      end
  end.

(** The six counters of [cap_counts]. *)
Inductive tier : Type :=
| MegaCap
| LargeCap
| MidCap
| SmallCap
| MicroCap
| NanoCap.

#[global] Instance tier_eq_dec : EqDecision tier.
Proof. solve_decision. Defined.

Definition tier_name (t : tier) : string :=
  match t with
  | MegaCap => "Mega-cap"
  | LargeCap => "Large-cap"
  | MidCap => "Mid-cap"
  | SmallCap => "Small-cap"
  | MicroCap => "Micro-cap"
  | NanoCap => "Nano-cap"
  end.

(** The counter that the if-chain of the handler increments. *)
Definition bucket (market_num : Q) : tier :=
  if ltb 200000000000 market_num then MegaCap
  else if leb 10000000000 market_num && leb market_num 200000000000
  then LargeCap
  else if leb 2000000000 market_num && ltb market_num 10000000000
  then MidCap
  else if leb 300000000 market_num && ltb market_num 2000000000
  then SmallCap
  else if leb 50000000 market_num && ltb market_num 300000000
  then MicroCap
  else NanoCap.

(** The key of a holding that the bucketing reads. *)
Record holding := {
  market_cap : Py.field string
}.

Definition classify (holding : holding) : tier :=
  let market_cap := Py.get (market_cap holding) in
  let market_num := parse_market_cap market_cap in
  bucket market_num.

Definition initial_cap_counts : gmap string nat :=
  list_to_map
    [ ("Mega-cap"%string, 0%nat); ("Large-cap"%string, 0%nat);
      ("Mid-cap"%string, 0%nat); ("Small-cap"%string, 0%nat);
      ("Micro-cap"%string, 0%nat); ("Nano-cap"%string, 0%nat) ].

(** The loop of the handler: [cap_counts[tier] += 1] for every holding. *)
Definition cap_counts (holdings : list holding) : gmap string nat :=
  foldl
    (λ cap_counts holding,
       alter (λ count, (count + 1)%nat) (tier_name (classify holding)) cap_counts)
    initial_cap_counts holdings.

End Size.

(** ** bias-analysis/momentum.py *)

Module Momentum.
Local Open Scope Q_scope.

(** [value or 0]: 0 for [None] and for a zero. *)
Definition or_zero (value : option Q) : Q :=
  match value with
  | Some x => if Qeq_bool x 0 then 0 else x
  | None => 0
  end.

Record holding := {
  trailing_return_1m : Py.field Q;
  portfolio_percentage : Py.field Q
}.

Definition weighted_trailing_return (holdings : list holding) : Q :=
  foldl
    (λ weighted_trailing_return holding,
       let trailing_return_1m := or_zero (Py.get (trailing_return_1m holding)) in
       let portfolio_percentage := or_zero (Py.get (portfolio_percentage holding)) in
       let contribution := trailing_return_1m * (portfolio_percentage / 100) in
       weighted_trailing_return + contribution)
    0 holdings.

Definition sp500_momentum : Q := 3.5.

(** The document that the handler stores under
    [results/{uniqueIdentifier}/momentum_results.json]; a [None] comparison
    is serialized as [null]. *)
Record result := {
  price_momentum_comparison : option Q;
  s_p500_momentum : Q;
  calculated_weighted_momentum : Q
}.

Definition lambda_handler (holdings : list holding) : result :=
  let weighted_trailing_return := weighted_trailing_return holdings in
  let momentum_comparison :=
    if negb (Qeq_bool weighted_trailing_return 0)
    then Some ((weighted_trailing_return - sp500_momentum) / sp500_momentum * 100)
    else None in
  {| price_momentum_comparison := momentum_comparison;
     s_p500_momentum := sp500_momentum;
     calculated_weighted_momentum := weighted_trailing_return |}.

End Momentum.

(** ** bias-analysis/volatility.py *)

Module Volatility.
Local Open Scope Q_scope.

(** The percentage is read with [get('portfolio_percentage', 0)] and divided
    at once, so it is absent or a number; the metrics are read with
    [get(key) or 0] and may also be null. *)
Record holding := {
  symbol : Py.field string;
  portfolio_percentage : option Q;
  beta : Py.field Q;
  sharpe : Py.field Q;
  asset_type : Py.field string
}.

(** The accumulators of the loop. *)
Record totals := {
  weighted_beta : Q;
  weighted_sharpe : Q;
  asset_type_count : gmap (option string) nat
}.

Definition process_holding (acc : totals) (holding : holding) : totals :=
  let portfolio_pct := default 0 (portfolio_percentage holding) in
  let beta := Momentum.or_zero (Py.get (beta holding)) in
  let sharpe := Momentum.or_zero (Py.get (sharpe holding)) in
  let asset_type := Py.get_default (asset_type holding) "Unknown"%string in
  let asset_type_count :=
    <[asset_type := (default 0%nat (asset_type_count acc !! asset_type) + 1)%nat]>
      (asset_type_count acc) in
  let weight := portfolio_pct / 100 in
  let contribution_beta := weight * beta in
  let contribution_sharpe := weight * sharpe in
  {| weighted_beta := weighted_beta acc + contribution_beta;
     weighted_sharpe := weighted_sharpe acc + contribution_sharpe;
     asset_type_count := asset_type_count |}.

Definition lambda_handler (holdings : list holding) : totals :=
  foldl process_holding
    {| weighted_beta := 0; weighted_sharpe := 0; asset_type_count := ∅ |}
    holdings.

End Volatility.

(** ** The weighted accumulation on IEEE binary64 numbers

    The loop of volatility.py on machine floats, for holdings that carry
    both numbers: it evaluates the worked examples with the rounding that
    Python performs. *)

Module Binary64.
Import Floats.
Local Open Scope float_scope.

Definition weighted_metric (holdings : list (float * float)) : float :=
  foldl
    (λ weighted '(portfolio_pct, metric),
       let weight := portfolio_pct / 100 in
       let contribution := weight * metric in
       weighted + contribution)
    0 holdings.

(** Holdings of 50 percent each with betas 1.2 and 0.8; the literals denote
    the nearest binary64 numbers, as in Python. *)
#[warnings="-inexact-float"]
Definition two_betas : list (float * float) := [ (50, 1.2); (50, 0.8) ].

End Binary64.

(** ** result-compiler.py *)

Module ResultCompiler.
Local Open Scope string_scope.

(** A parsed JSON document; an object keeps its members in insertion
    order. *)
#[warnings="-register-all"]
Inductive json : Type :=
| JNull
| JBool (b : bool)
| JNumber (q : Q)
| JString (s : string)
| JArray (items : list json)
| JObject (members : list (string * json)).

(** [d[key] = value] on an insertion-ordered dict. *)
Fixpoint dict_set (d : list (string * json)) (key : string) (value : json)
  : list (string * json) :=
  match d with
  | [] => [(key, value)]
  | (k, v) :: d' =>
      if String.eqb k key then (k, value) :: d' else (k, v) :: dict_set d' key value
  end.

(** The exceptions that the handler raises. *)
Inductive error : Type :=
| NoFilesFound (prefix : string)
| MissingRequiredResultFiles (missing_files : list string)
| ErrorReading (key : string).

Definition required_files : list string :=
  [ "location_results.json";
    "momentum_results.json";
    "sector_results.json";
    "size_results.json";
    "volatility_results.json" ].

(** The bucket maps the key of an object to its parsed JSON body.
    [list_objects_v2(Prefix=prefix)]: the keys of the objects whose key
    starts with the prefix (a single page of results). *)
Definition list_objects (bucket : gmap string json) (prefix : string)
  : list string :=
  filter (λ key, Py.startswith key prefix = true) (map_to_list bucket).*1.

(** The loop that reads the required files into [combined_data]. *)
Fixpoint read_files (bucket : gmap string json) (prefix : string)
  (files : list string) (combined_data : list (string * json))
  : error + list (string * json) :=
  match files with
  | [] => inr combined_data
  | filename :: files' =>
      let key := prefix ++ filename in
      match bucket !! key with
      | Some content =>
          read_files bucket prefix files'
            (dict_set combined_data (Py.replace ".json" "" filename) content)
      | None => inl (ErrorReading key)
      end
  end.

(** The handler on a snapshot of the bucket: the exception it raises, or
    the bucket after [put_object]. *)
Definition lambda_handler (bucket : gmap string json) (uniqueIdentifier : string)
  : error + gmap string json :=
  let prefix := "results/" ++ uniqueIdentifier ++ "/" in
  let contents := list_objects bucket prefix in
  match contents with
  | [] => inl (NoFilesFound prefix)
  | _ :: _ =>
      let found_files := Py.replace prefix "" <$> contents in
      let missing_files :=
        filter (λ f, f ∉ found_files) required_files in
      match missing_files with
      | _ :: _ => inl (MissingRequiredResultFiles missing_files)
      | [] =>
          match read_files bucket prefix required_files [] with
          | inl e => inl e
          | inr combined_data =>
              let combined_key := uniqueIdentifier ++ "_combined_results.json" in
              inr (<[combined_key := JObject combined_data]> bucket)
          end
      end
  end.

End ResultCompiler.

(** ** Reference definitions

    Quantities written after the specification's words, to compare with
    what the code computes, and the inputs of the worked examples. *)

Module Spec.

(** A missing number counts as 0. *)
Definition number_or_zero (f : Py.field Q) : Q :=
  match f with
  | Py.Present x => x
  | Py.Absent | Py.Null => 0%Q
  end.

(** The sum of [weight / 100 * metric] over all holdings. *)
Definition weighted_sum {H} (weight metric : H → Q) (holdings : list H) : Q :=
  fold_right (λ h total, (weight h / 100 * metric h + total)%Q) 0%Q holdings.

End Spec.

Module Examples.
Local Open Scope string_scope.

Definition two_sectors : gmap (option string) R :=
  <[Some "Tech" := 30%R]> (<[Some "Health Care" := 10%R]> ∅).

Definition tech_only : gmap (option string) R := {[ Some "Tech" := 30%R ]}.

Definition health_only : gmap (option string) R := {[ Some "Health Care" := 10%R ]}.

Definition sector_holding (sector : string) (pct : R) : Sector.holding :=
  {| Sector.symbol := Py.Null;
     Sector.portfolio_percentage := Some pct;
     Sector.sector := Py.Present sector |}.

(** A short position next to a long one. *)
Definition short_and_long : list Sector.holding :=
  [ sector_holding "Tech" (-10)%R; sector_holding "Health Care" 50%R ].

(** The end-to-end scenario of the specification. *)
Definition three_holdings : list Sector.holding :=
  [ sector_holding "Tech" 60%R; sector_holding "Health Care" 30%R;
    sector_holding "Tech" 10%R ].

(** A holding that the enrichment step did not reach. *)
Definition bare_holding : BiasRouter.holding :=
  {| BiasRouter.symbol := Py.Present "ACME";
     BiasRouter.portfolio_percentage := Some 25%R;
     BiasRouter.analysis := None |}.

(** A namespace that holds the size result only. *)
Definition size_only : gmap string ResultCompiler.json :=
  {[ "results/p1/size_results.json" := ResultCompiler.JNull ]}.

Definition beta_holding (beta : Q) : Volatility.holding :=
  {| Volatility.symbol := Py.Absent;
     Volatility.portfolio_percentage := Some 50%Q;
     Volatility.beta := Py.Present beta;
     Volatility.sharpe := Py.Absent;
     Volatility.asset_type := Py.Absent |}.

Definition momentum_holding (trailing_return pct : Q) : Momentum.holding :=
  {| Momentum.trailing_return_1m := Py.Present trailing_return;
     Momentum.portfolio_percentage := Py.Present pct |}.

End Examples.

(** * Properties *)

(** ** Arithmetic of the Python primitives *)

Section PyFacts.
Local Open Scope R_scope.

Lemma float_eqb_true x y : Py.float_eqb x y = true ↔ x = y.
Proof. unfold Py.float_eqb. destruct (Req_dec_T x y); split; congruence. Qed.

Lemma float_eqb_false x y : Py.float_eqb x y = false ↔ x ≠ y.
Proof. unfold Py.float_eqb. destruct (Req_dec_T x y); split; congruence. Qed.

Lemma div_nonzero x y : y ≠ 0 → Py.div x y = Some (x / y).
Proof. intros Hy. unfold Py.div. apply float_eqb_false in Hy. by rewrite Hy. Qed.

Lemma math_sqrt_nonneg x : 0 <= x → Py.math_sqrt x = Some (sqrt x).
Proof. intros Hx. unfold Py.math_sqrt. destruct (Rlt_dec x 0); [lra | done]. Qed.

Lemma foldl_Rplus a xs : foldl Rplus a xs = a + Py.sum xs.
Proof.
    unfold Py.sum. revert a. induction xs as [|x xs IH]; intros a; simpl.
    - lra.
    - rewrite (IH (a + x)), (IH (0 + x)). lra.
Qed.

Lemma sum_nil : Py.sum [] = 0.
Proof. reflexivity. Qed.

Lemma sum_cons x xs : Py.sum (x :: xs) = x + Py.sum xs.
Proof. unfold Py.sum at 1. simpl. rewrite foldl_Rplus. lra. Qed.

Lemma sum_app xs ys : Py.sum (xs ++ ys) = Py.sum xs + Py.sum ys.
Proof.
  induction xs as [|x xs IH]; simpl.
  - rewrite sum_nil. lra.
  - rewrite !sum_cons, IH. lra.
Qed.

Lemma sum_permutation xs ys : xs ≡ₚ ys → Py.sum xs = Py.sum ys.
Proof.
    induction 1; rewrite ?sum_cons; lra.
Qed.

Lemma sum_scaled (c : R) xs : Py.sum ((λ v, v * c) <$> xs) = Py.sum xs * c.
Proof.
    induction xs as [|x xs IH]; csimpl.
    - rewrite sum_nil. lra.
    - rewrite !sum_cons, IH. lra.
Qed.

Lemma sum_squares_nonneg xs : 0 <= Py.sum ((λ a, a * a) <$> xs).
Proof.
    induction xs as [|x xs IH]; csimpl.
    - rewrite sum_nil. lra.
    - rewrite sum_cons. nra.
Qed.

Lemma sum_squares_zero xs :
    Py.sum ((λ a, a * a) <$> xs) = 0 → Forall (λ a, a = 0) xs.
Proof.
    induction xs as [|x xs IH]; csimpl; [constructor|].
    rewrite sum_cons. intros Hs.
    pose proof (sum_squares_nonneg xs).
    constructor; [nra | apply IH; nra].
Qed.

Lemma sum_nonneg xs : Forall (λ a, 0 <= a) xs → 0 <= Py.sum xs.
Proof.
    induction 1; [rewrite sum_nil; lra | rewrite sum_cons; lra].
Qed.

Lemma round_half_even_IZR (n : Z) : Py.round_half_even (IZR n) = n.
Proof.
    assert (Hn : Int_part (IZR n) = n).
    { symmetry. apply Int_part_spec. lra. }
    unfold Py.round_half_even, frac_part. rewrite Hn.
    destruct (Rlt_dec _ _) as [|Hf]; [done | lra].
Qed.

Lemma round2_hundredths (n : Z) : Py.round2 (IZR n / 100) = IZR n / 100.
Proof.
    unfold Py.round2. replace (IZR n / 100 * 100) with (IZR n) by lra.
    by rewrite round_half_even_IZR.
Qed.
End PyFacts.

(** ** Dicts of weights *)

Section SectorFacts.
Context `{Countable K}.
Local Open Scope R_scope.

Lemma values_empty : Sector.values (∅ : gmap K R) = [].
Proof. unfold Sector.values. by rewrite map_to_list_empty. Qed.

Lemma sum_values_insert (m : gmap K R) k v :
  m !! k = None →
  Py.sum (Sector.values (<[k:=v]> m)) = v + Py.sum (Sector.values m).
Proof.
  intros Hk. unfold Sector.values.
  rewrite (sum_permutation _ (v :: (map_to_list m).*2)).
  - apply sum_cons.
  - by rewrite map_to_list_insert.
Qed.

Lemma values_fmap (g : R → R) (m : gmap K R) :
  Sector.values (g <$> m) = g <$> Sector.values m.
Proof.
  unfold Sector.values. rewrite map_to_list_fmap, <- !list_fmap_compose.
  by apply list_fmap_ext; intros ? [??].
Qed.

Lemma elem_of_values (m : gmap K R) v :
  v ∈ Sector.values m ↔ ∃ k, m !! k = Some v.
Proof.
  unfold Sector.values. rewrite list_elem_of_fmap. split.
  - intros [[k w] [-> Hkw]]. exists k. by apply elem_of_map_to_list.
  - intros [k Hk]. exists (k, v). split; [done | by apply elem_of_map_to_list].
Qed.

Lemma dict_comprehension_pure (f : K → R → option R) (g : R → R) (m : gmap K R) :
  (∀ k v, f k v = Some (g v)) →
  Sector.dict_comprehension f m = Some (g <$> m).
Proof.
  intros Hf. unfold Sector.dict_comprehension.
  match goal with |- _ <$> ?c = _ =>
    assert (c = Some (prod_map Datatypes.id g <$> map_to_list m)) as ->
  end.
  - apply mapM_Some_2, Forall2_fmap_r, Forall_Forall2_diag, Forall_forall.
    intros [k v] _. simpl. by rewrite Hf.
  - simpl. by rewrite list_to_map_fmap, list_to_map_to_list.
Qed.

Lemma normalize_zero_total (m : gmap K R) :
  Py.sum (Sector.values m) = 0 →
  Sector.normalize_sector_allocations m = Some m.
Proof.
  intros Ht. unfold Sector.normalize_sector_allocations.
  apply float_eqb_true in Ht. by rewrite Ht.
Qed.

Lemma normalize_nonzero_total (m : gmap K R) :
  Py.sum (Sector.values m) ≠ 0 →
  Sector.normalize_sector_allocations m =
    Some ((λ v, v / Py.sum (Sector.values m) * 100) <$> m).
Proof.
  intros Ht. unfold Sector.normalize_sector_allocations.
  pose proof Ht as Hb. apply float_eqb_false in Hb. rewrite Hb.
  apply dict_comprehension_pure. intros _ v. by rewrite div_nonzero.
Qed.

(** The normalizer never raises, and rescales every weight by one factor
    that is not zero. *)
Lemma normalize_scales (m : gmap K R) :
  ∃ c, c ≠ 0 ∧
    Sector.normalize_sector_allocations m = Some ((λ v, v * c) <$> m).
Proof.
  destruct (Req_dec_T (Py.sum (Sector.values m)) 0) as [Ht|Ht].
  - exists 1. split; [lra|]. rewrite normalize_zero_total by done.
    f_equal. apply map_eq. intros k. rewrite lookup_fmap.
    destruct (m !! k); simpl; f_equal; lra.
  - exists (100 / Py.sum (Sector.values m)). split.
    + unfold Rdiv. apply Rmult_integral_contrapositive. split; [lra|].
      by apply Rinv_neq_0_compat.
    + rewrite normalize_nonzero_total by done. f_equal.
      apply map_fmap_ext. intros. unfold Rdiv. ring.
Qed.

Lemma sum_normalized (m : gmap K R) :
  Py.sum (Sector.values m) ≠ 0 →
  Py.sum (Sector.values ((λ v, v / Py.sum (Sector.values m) * 100) <$> m)) = 100.
Proof.
  intros Ht. set (t := Py.sum (Sector.values m)) in *.
  rewrite values_fmap.
  rewrite (list_fmap_ext _ (λ v, v * (100 / t)) (Sector.values m))
    by (intros; unfold Rdiv; ring).
  rewrite sum_scaled. fold t. by field.
Qed.
End SectorFacts.

(** ** Location aggregation *)

Section LocationFacts.
Local Open Scope R_scope.

Lemma sum_values_overwrite `{Countable K} (m : gmap K R) k old v :
  m !! k = Some old →
  Py.sum (Sector.values (<[k:=v]> m)) = Py.sum (Sector.values m) - old + v.
Proof.
  intros Hk.
  rewrite <- (insert_delete_eq m k v), sum_values_insert by apply lookup_delete_eq.
  rewrite <- (insert_delete_id m k old Hk) at 2.
  rewrite sum_values_insert by apply lookup_delete_eq. lra.
Qed.

(** The running total is the sum of the allocations, and every allocation
    is positive. *)
Lemma accumulate_invariant (holdings : list Location.holding) :
  (Location.accumulate holdings).2 =
    Py.sum (Sector.values (Location.accumulate holdings).1) ∧
  ∀ location v, (Location.accumulate holdings).1 !! location = Some v → 0 < v.
Proof.
  unfold Location.accumulate.
  induction holdings as [|h holdings IH] using rev_ind.
  { simpl. split; [by rewrite values_empty, sum_nil | by intros ??; rewrite lookup_empty]. }
  rewrite foldl_snoc. destruct (foldl _ _ holdings) as [allocations total].
  simpl in IH. destruct IH as [-> Hpos]. unfold Location.process_holding.
  destruct (Py.get_default _ _) as [percentage|]; [|done].
  destruct (Rle_dec percentage 0); [done|].
  destruct (_ && _); [done|].
  match goal with |- context [allocations !! ?loc] =>
    generalize loc; intros location end.
  destruct (allocations !! location) as [allocated|] eqn:Hl; simpl.
  - split.
    + rewrite (sum_values_overwrite _ _ allocated) by done. lra.
    + intros k v [[_ <-]|[_ Hk]]%lookup_insert_Some; [|by eapply Hpos].
      specialize (Hpos _ _ Hl). lra.
  - split.
    + rewrite sum_values_insert by done. lra.
    + intros k v [[_ <-]|[_ Hk]]%lookup_insert_Some; [lra | by eapply Hpos].
Qed.

(** The normalization at the end of the location aggregation is the sector
    normalizer applied to the accumulated allocations. *)
Lemma location_normalization (holdings : list Location.holding) :
  Location.process_holdings_to_locations holdings =
  Sector.normalize_sector_allocations (Location.accumulate holdings).1.
Proof.
  unfold Location.process_holdings_to_locations, Sector.normalize_sector_allocations.
  destruct (accumulate_invariant holdings) as [Ht Hpos].
  destruct (Location.accumulate holdings) as [allocations total].
  simpl in *. subst total.
  destruct (Rlt_dec 0 _) as [Hlt|Hge].
  - rewrite (proj2 (float_eqb_false _ 0)) by lra. done.
  - rewrite (proj2 (float_eqb_true _ 0)); [done|].
    assert (0 <= Py.sum (Sector.values allocations)); [|lra].
    apply sum_nonneg, Forall_forall. intros v [k Hk]%elem_of_values.
    specialize (Hpos _ _ Hk). lra.
Qed.
End LocationFacts.

(** ** The normalizer *)

Section Normalizer.
Context `{Countable K}.
Local Open Scope R_scope.

(** C1.  Let [total] be the sum of the weights of [m].  If [total] is zero
    (the empty mapping included) the normalizer returns [m] itself.
    Otherwise it returns, without raising, a mapping over exactly the keys
    of [m] whose value at [k] is [m[k] / total * 100]; when moreover the
    weights are non-negative and [total] is positive, the returned values
    sum to 100 within 1e-6 and two categories compare the same way before
    and after.  The normalization that ends the location aggregation is
    this normalizer applied to the accumulated allocations. *)
Theorem normalizer_contract (m : gmap K R) :
  let total := Py.sum (Sector.values m) in
  (total = 0 → Sector.normalize_sector_allocations m = Some m) ∧
  Sector.normalize_sector_allocations (∅ : gmap K R) = Some ∅ ∧
  (∀ holdings,
     Location.process_holdings_to_locations holdings =
     Sector.normalize_sector_allocations (Location.accumulate holdings).1) ∧
  (total ≠ 0 →
     ∃ out, Sector.normalize_sector_allocations m = Some out ∧
       dom out = dom m ∧
       (∀ k, out !! k = (λ v, v / total * 100) <$> m !! k) ∧
       (0 < total → (∀ k v, m !! k = Some v → 0 <= v) →
          Rabs (Py.sum (Sector.values out) - 100) <= 1 / 1000000 ∧
          ∀ k1 k2 v1 v2 w1 w2,
            m !! k1 = Some v1 → m !! k2 = Some v2 →
            out !! k1 = Some w1 → out !! k2 = Some w2 →
            (v1 <= v2 ↔ w1 <= w2))).
Proof.
  intros total. split; [apply normalize_zero_total|]. split.
  { apply normalize_zero_total. by rewrite values_empty. }
  split; [apply location_normalization|].
  intros Ht. eexists. split; [by apply normalize_nonzero_total|].
  fold total. split; [apply dom_fmap_L|]. split; [intros k; apply lookup_fmap|].
  intros Hpos Hnonneg. split.
  - subst total. rewrite sum_normalized by done.
    rewrite Rminus_diag, Rabs_R0. lra.
  - intros k1 k2 v1 v2 w1 w2 H1 H2. rewrite !lookup_fmap, H1, H2. simpl.
    intros [= <-] [= <-].
    assert (Hc : 0 < 100 / total) by (apply Rdiv_lt_0_compat; lra).
    replace (v1 / total * 100) with (v1 * (100 / total)) by (unfold Rdiv; ring).
    replace (v2 / total * 100) with (v2 * (100 / total)) by (unfold Rdiv; ring).
    split; intros Hle; nra.
Qed.
End Normalizer.

Lemma two_sectors_total : Py.sum (Sector.values Examples.two_sectors) = 40%R.
Proof.
  unfold Examples.two_sectors.
  rewrite sum_values_insert by by simplify_map_eq.
  rewrite sum_values_insert by by simplify_map_eq.
  rewrite values_empty, sum_nil. lra.
Qed.

Lemma normalizer_contract_witness :
  ∃ out, Sector.normalize_sector_allocations Examples.two_sectors = Some out ∧
    out !! Some "Tech"%string = Some 75%R ∧
    (Rabs (Py.sum (Sector.values out) - 100) <= 1 / 1000000)%R.
Proof.
  destruct (normalizer_contract Examples.two_sectors) as (_ & _ & _ & Hnz).
  destruct Hnz as (out & Hout & _ & Hval & Hsum).
  { rewrite two_sectors_total. lra. }
  destruct Hsum as (Hsum & _).
  { rewrite two_sectors_total. lra. }
  { unfold Examples.two_sectors. intros k v Hk.
    apply lookup_insert_Some in Hk as [[_ <-]|[_ Hk]]; [lra|].
    apply lookup_insert_Some in Hk as [[_ <-]|[_ Hk]]; [lra|].
    by rewrite lookup_empty in Hk. }
  exists out. split; [done|]. split; [|done].
  rewrite Hval, two_sectors_total. unfold Examples.two_sectors.
  rewrite lookup_insert_eq. simpl. f_equal. lra.
Defined.

(** ** Cosine similarity *)

Section Similarity.
Context `{Countable K}.
Local Open Scope R_scope.

Lemma zip_with_fmap_same {A} (f g : A → R) (l : list A) :
  zip_with Rmult (f <$> l) (g <$> l) = (λ x, f x * g x) <$> l.
Proof. induction l as [|x l IH]; csimpl; [done | by rewrite IH]. Qed.

Lemma sum_all_zero {A} (f : A → R) (l : list A) :
  (∀ x, x ∈ l → f x = 0) → Py.sum (f <$> l) = 0.
Proof.
  induction l as [|x l IH]; csimpl; intros Hz.
  - apply sum_nil.
  - rewrite sum_cons, IH, Hz; [lra | set_solver | set_solver].
Qed.

(** The magnitude of the vector of [d] over a key set that covers [d] is
    zero exactly when all the weights of [d] are zero. *)
Lemma squares_zero_weights (d : gmap K R) (keys : gset K) :
  dom d ⊆ keys →
  Py.sum ((λ a, a * a) <$> Sector.vector_of d keys) = 0 →
  ∀ k v, d !! k = Some v → v = 0.
Proof.
  intros Hsub Hs k v Hk. apply sum_squares_zero in Hs.
  rewrite Forall_forall in Hs. symmetry. rewrite <- (Hs v); [done|].
  unfold Sector.vector_of. apply list_elem_of_fmap. exists k.
  rewrite Hk. split; [done|]. apply elem_of_elements, Hsub.
  by apply elem_of_dom.
Qed.

Lemma calculate_similarity_unfold (sp500 user : gmap K R) :
  ∃ c1 c2, c1 ≠ 0 ∧ c2 ≠ 0 ∧
    Sector.normalize_sector_allocations sp500 = Some ((λ v, v * c1) <$> sp500) ∧
    Sector.normalize_sector_allocations user = Some ((λ v, v * c2) <$> user) ∧
    Sector.calculate_similarity sp500 user =
      let a := (λ v, v * c1) <$> sp500 in
      let b := (λ v, v * c2) <$> user in
      let keys := elements (dom a ∪ dom b) in
      let va := (λ k, default 0 (a !! k)) <$> keys in
      let vb := (λ k, default 0 (b !! k)) <$> keys in
      let ma := sqrt (Py.sum ((λ x, x * x) <$> va)) in
      let mb := sqrt (Py.sum ((λ x, x * x) <$> vb)) in
      if Py.float_eqb ma 0 || Py.float_eqb mb 0 then Some 0
      else Some (Py.round2 (Py.sum (zip_with Rmult va vb) / (ma * mb) * 100)).
Proof.
  destruct (normalize_scales sp500) as (c1 & Hc1 & Hn1).
  destruct (normalize_scales user) as (c2 & Hc2 & Hn2).
  exists c1, c2. do 4 (split; [done|]).
  unfold Sector.calculate_similarity. rewrite Hn1, Hn2. simpl.
  unfold Sector.vector_of.
  rewrite !math_sqrt_nonneg by apply sum_squares_nonneg. simpl.
  destruct (_ || _) eqn:Hz; [done|].
  apply orb_false_elim in Hz as [Ha Hb].
  apply float_eqb_false in Ha, Hb.
  rewrite div_nonzero; [done|].
  by apply Rmult_integral_contrapositive.
Qed.

Lemma default_scaled (m : gmap K R) c k :
  default 0 (((λ v, v * c) <$> m) !! k) = default 0 (m !! k) * c.
Proof. rewrite lookup_fmap. destruct (m !! k); simpl; lra. Qed.

Lemma round2_zero : Py.round2 0 = 0.
Proof.
  replace 0 with (IZR 0 / 100) at 1 by lra. rewrite round2_hundredths. lra.
Qed.

Lemma round2_hundred : Py.round2 100 = 100.
Proof.
  replace 100 with (IZR 10000 / 100) at 1 by lra. rewrite round2_hundredths. lra.
Qed.

(** C2.  The similarity computation never raises: no division by zero (and
    no square root of a negative number) can occur.  It returns 0.0 as soon
    as the magnitude of one of the two vectors is 0, and it returns 0.0
    whenever no key carries a nonzero weight in both distributions. *)
Theorem similarity_zero_defined (A B : gmap K R) :
  is_Some (Sector.calculate_similarity A B) ∧
  (∀ An Bn ma mb,
     Sector.normalize_sector_allocations A = Some An →
     Sector.normalize_sector_allocations B = Some Bn →
     Py.math_sqrt (Py.sum ((λ a, a * a) <$>
       Sector.vector_of An (dom An ∪ dom Bn))) = Some ma →
     Py.math_sqrt (Py.sum ((λ b, b * b) <$>
       Sector.vector_of Bn (dom An ∪ dom Bn))) = Some mb →
     ma = 0 ∨ mb = 0 →
     Sector.calculate_similarity A B = Some 0) ∧
  ((∀ k va vb, A !! k = Some va → B !! k = Some vb → va = 0 ∨ vb = 0) →
   Sector.calculate_similarity A B = Some 0).
Proof.
  split; [|split].
  - destruct (calculate_similarity_unfold A B) as (c1 & c2 & _ & _ & _ & _ & ->).
    simpl. by destruct (_ || _).
  - intros An Bn ma mb HA HB Hma Hmb Hz.
    unfold Sector.calculate_similarity. rewrite HA, HB. simpl.
    rewrite Hma, Hmb. simpl.
    destruct Hz as [-> | ->].
    + by rewrite (proj2 (float_eqb_true 0 0)).
    + rewrite (proj2 (float_eqb_true 0 0)) by done. by rewrite orb_true_r.
  - intros Hdisj.
    destruct (calculate_similarity_unfold A B) as (c1 & c2 & _ & _ & _ & _ & ->).
    simpl. destruct (_ || _); [done|]. f_equal.
    rewrite zip_with_fmap_same, sum_all_zero.
    + unfold Rdiv. rewrite !Rmult_0_l. apply round2_zero.
    + intros k _. rewrite !default_scaled.
      destruct (A !! k) as [va|] eqn:Ha, (B !! k) as [vb|] eqn:Hb; simpl;
        try lra.
      destruct (Hdisj k va vb Ha Hb) as [-> | ->]; lra.
Qed.

(** C9.  A distribution with at least one nonzero weight is 100.0 similar
    to itself. *)
Theorem self_similarity_maximal (A : gmap K R) :
  (∃ k v, A !! k = Some v ∧ v ≠ 0) →
  Sector.calculate_similarity A A = Some 100.
Proof.
  intros (k0 & v0 & Hk0 & Hv0).
  destruct (normalize_scales A) as (c & Hc & Hn).
  unfold Sector.calculate_similarity. rewrite Hn. simpl.
  set (A' := (λ v, v * c) <$> A).
  set (S := Py.sum ((λ a, a * a) <$> Sector.vector_of A' (dom A' ∪ dom A'))).
  assert (HS0 : 0 <= S) by apply sum_squares_nonneg.
  assert (HS : S ≠ 0).
  { intros HS. apply (squares_zero_weights A' _) with (k := k0) (v := v0 * c) in HS.
    - apply Rmult_integral in HS. tauto.
    - set_solver.
    - subst A'. by rewrite lookup_fmap, Hk0. }
  rewrite math_sqrt_nonneg by done. simpl.
  assert (Hm : sqrt S ≠ 0).
  { intros Hm. apply sqrt_eq_0 in Hm; done. }
  rewrite (proj2 (float_eqb_false _ _) Hm). simpl.
  rewrite div_nonzero by by apply Rmult_integral_contrapositive. simpl.
  f_equal. rewrite sqrt_sqrt by done.
  unfold Sector.vector_of. rewrite zip_with_fmap_same.
  match goal with |- Py.round2 (?d / _ * _) = _ =>
    replace d with S
      by (subst S; unfold Sector.vector_of; by rewrite <- list_fmap_compose)
  end.
  replace (S / S * 100) with 100 by by field.
  apply round2_hundred.
Qed.
End Similarity.

Lemma similarity_zero_defined_witness :
  Sector.calculate_similarity Examples.tech_only Examples.health_only = Some 0%R.
Proof.
  apply (similarity_zero_defined Examples.tech_only Examples.health_only).
  unfold Examples.tech_only, Examples.health_only. intros k va vb Ha Hb.
  apply lookup_singleton_Some in Ha as [<- _].
  apply lookup_singleton_Some in Hb as [Hk _]. discriminate Hk.
Defined.

Lemma self_similarity_maximal_witness :
  Sector.calculate_similarity Examples.two_sectors Examples.two_sectors =
  Some 100%R.
Proof.
  apply self_similarity_maximal. exists (Some "Tech"%string), 30%R. split.
  - apply lookup_insert_eq.
  - lra.
Defined.

(** ** Sector aggregation *)

Section Aggregation.
Local Open Scope R_scope.

(** One turn of the loop of [process_holdings_to_sectors]. *)
Lemma process_holdings_to_sectors_snoc (holdings : list Sector.holding) h :
  Sector.process_holdings_to_sectors (holdings ++ [h]) =
  let allocations := Sector.process_holdings_to_sectors holdings in
  let sector := Py.get_default (Sector.sector h) "Unknown"%string in
  let percentage := default 0 (Sector.portfolio_percentage h) in
  <[sector := match allocations !! sector with
              | Some allocated => allocated + percentage
              | None => percentage
              end]> allocations.
Proof.
  unfold Sector.process_holdings_to_sectors. rewrite foldl_snoc. simpl.
  by case_match.
Qed.

(** The allocation of a key is the sum of the percentages of all the
    holdings filed under it, whatever their sign; a key without holdings is
    not in the dict. *)
Lemma process_holdings_to_sectors_lookup (holdings : list Sector.holding) key :
  Sector.process_holdings_to_sectors holdings !! key =
  match filter (λ h, Py.get_default (Sector.sector h) "Unknown"%string = key)
               holdings with
  | [] => None
  | filed => Some (Py.sum ((λ h, default 0 (Sector.portfolio_percentage h)) <$> filed))
  end.
Proof.
  induction holdings as [|h holdings IH] using rev_ind; [done|].
  rewrite process_holdings_to_sectors_snoc, filter_app. cbv zeta.
  rewrite filter_cons, filter_nil.
  destruct (decide (Py.get_default (Sector.sector h) "Unknown"%string = key))
    as [Hk|Hk].
  - rewrite Hk, lookup_insert_eq, IH.
    destruct (filter _ holdings) as [|h0 filed].
    + simpl. f_equal. rewrite sum_cons, sum_nil. lra.
    + change ((h0 :: filed) ++ [h]) with (h0 :: (filed ++ [h])). cbv iota.
      f_equal. rewrite !fmap_cons, fmap_app, !sum_cons, sum_app.
      rewrite fmap_cons, sum_cons, fmap_nil, sum_nil. lra.
  - rewrite lookup_insert_ne, IH, app_nil_r by done. done.
Qed.
End Aggregation.

Section SectorClaims.
Local Open Scope R_scope.
Local Open Scope string_scope.

(** The sector preparer keeps the holdings that are not ETFs, in order, and
    always writes the three keys. *)
Lemma prepare_sector_data_omap (holdings : list BiasRouter.holding) :
  BiasRouter.prepare_sector_data holdings =
  omap
    (λ holding,
       let analysis :=
         default BiasRouter.no_analysis (BiasRouter.analysis holding) in
       if decide (Py.get (BiasRouter.asset_type analysis) = Some "ETF")
       then None
       else Some
         {| Sector.symbol := Py.stored (Py.get (BiasRouter.symbol holding));
            Sector.portfolio_percentage :=
              Some (default 0 (BiasRouter.portfolio_percentage holding));
            Sector.sector := Py.stored (Py.get (BiasRouter.sector analysis)) |})
    holdings.
Proof.
  induction holdings as [|h holdings IH] using rev_ind; [done|].
  unfold BiasRouter.prepare_sector_data in *.
  rewrite foldl_snoc, omap_app, IH. simpl.
  case_decide; simpl; by rewrite ?app_nil_r.
Qed.

(** C10.  A holding whose 'sector' is present but null is filed under the
    null key, and only such holdings are; the 'Unknown' key receives the
    holdings that have no 'sector' key at all (and those whose sector is the
    string "Unknown").  The sector preparer always writes the 'sector' key,
    and writes null for a holding that has no analysis or whose analysis has
    no sector, so the percentage of such a holding is accumulated under the
    null key. *)
Theorem null_sector_is_its_own_key
  (holdings : list Sector.holding) (portfolio : list BiasRouter.holding) :
  Sector.process_holdings_to_sectors holdings !! None =
    match filter (λ h, Sector.sector h = Py.Null) holdings with
    | [] => None
    | filed =>
        Some (Py.sum ((λ h, default 0 (Sector.portfolio_percentage h)) <$> filed))
    end ∧
  Sector.process_holdings_to_sectors holdings !! Some "Unknown" =
    match filter (λ h, Sector.sector h = Py.Absent ∨
                       Sector.sector h = Py.Present "Unknown") holdings with
    | [] => None
    | filed =>
        Some (Py.sum ((λ h, default 0 (Sector.portfolio_percentage h)) <$> filed))
    end ∧
  Forall (λ h, Sector.sector h ≠ Py.Absent)
    (BiasRouter.prepare_sector_data portfolio) ∧
  (∀ h, h ∈ portfolio →
     BiasRouter.analysis h = None ∨
     (∃ a, BiasRouter.analysis h = Some a ∧
           Py.get (BiasRouter.asset_type a) ≠ Some "ETF" ∧
           Py.get (BiasRouter.sector a) = None) →
     {| Sector.symbol := Py.stored (Py.get (BiasRouter.symbol h));
        Sector.portfolio_percentage :=
          Some (default 0 (BiasRouter.portfolio_percentage h));
        Sector.sector := Py.Null |}
     ∈ BiasRouter.prepare_sector_data portfolio).
Proof.
  split; [|split; [|split]].
  - rewrite process_holdings_to_sectors_lookup.
    rewrite (list_filter_iff _ (λ h, Sector.sector h = Py.Null)); [done|].
    intros h. by destruct (Sector.sector h).
  - rewrite process_holdings_to_sectors_lookup.
    rewrite (list_filter_iff _ (λ h, Sector.sector h = Py.Absent ∨
      Sector.sector h = Py.Present "Unknown")); [done|].
    intros h. destruct (Sector.sector h) as [| |name]; simpl.
    + split; [by left | done].
    + split; [done | by intros [|]].
    + split; [intros [= ->]; by right | by intros [|[= ->]]].
  - rewrite prepare_sector_data_omap. apply Forall_forall.
    intros h' (h & _ & Hh)%list_elem_of_omap. simpl in Hh.
    case_decide; [done|]. injection Hh as <-. simpl.
    unfold Py.stored. by case_match.
  - intros h Hin Hbare. rewrite prepare_sector_data_omap.
    apply list_elem_of_omap. exists h. split; [done|]. simpl.
    destruct Hbare as [-> | (a & -> & Hetf & Hsec)]; simpl.
    + done.
    + by rewrite decide_False, Hsec.
Qed.

Lemma null_sector_is_its_own_key_witness :
  {| Sector.symbol := Py.Present "ACME";
     Sector.portfolio_percentage := Some 25;
     Sector.sector := Py.Null |}
  ∈ BiasRouter.prepare_sector_data [Examples.bare_holding].
Proof.
  destruct (null_sector_is_its_own_key [] [Examples.bare_holding])
    as (_ & _ & _ & Hprep).
  apply (Hprep Examples.bare_holding).
  - apply list_elem_of_singleton. reflexivity.
  - left. reflexivity.
Defined.

(** The end-to-end scenario: 60 and 10 of Tech and 30 of Health Care
    aggregate to 70 and 30. *)
Example three_holdings_allocations :
  Sector.process_holdings_to_sectors Examples.three_holdings =
  <[Some "Tech" := 70]> (<[Some "Health Care" := 30]> ∅).
Proof.
  apply map_eq. intros key. rewrite process_holdings_to_sectors_lookup.
  unfold Examples.three_holdings.
  destruct (decide (key = Some "Tech")) as [->|Htech].
  { rewrite lookup_insert_eq. simpl. f_equal.
    rewrite !sum_cons, sum_nil. simpl. lra. }
  rewrite lookup_insert_ne by done.
  destruct (decide (key = Some "Health Care")) as [->|Hhealth].
  { rewrite lookup_insert_eq. simpl. f_equal.
    rewrite !sum_cons, sum_nil. simpl. lra. }
  rewrite lookup_insert_ne, lookup_empty by done.
  rewrite !filter_cons, filter_nil. simpl.
  by rewrite !decide_False by done.
Qed.

(** What the aggregation returns for a short position next to a long one. *)
Lemma short_and_long_allocations :
  Sector.process_holdings_to_sectors Examples.short_and_long =
  <[Some "Health Care" := 50]> (<[Some "Tech" := -10]> ∅).
Proof.
  unfold Sector.process_holdings_to_sectors, Examples.short_and_long.
  cbn [foldl Examples.sector_holding Sector.sector Sector.portfolio_percentage
       Py.get_default default].
  rewrite lookup_empty, lookup_insert_ne by done. by rewrite lookup_empty.
Qed.

(** C7 at a negative percentage.  The sector aggregation does not skip the
    holding: its -10 is the allocation of its sector, it lowers the
    denominator of the normalization from 50 to 40, and the normalized
    weights are -25 and 125. *)
Theorem sector_aggregation_keeps_nonpositive :
  let allocations := Sector.process_holdings_to_sectors Examples.short_and_long in
  allocations !! Some "Tech" = Some (-10) ∧
  Py.sum (Sector.values allocations) = 40 ∧
  ∃ normalized,
    Sector.normalize_sector_allocations allocations = Some normalized ∧
    normalized !! Some "Tech" = Some (-25) ∧
    normalized !! Some "Health Care" = Some 125.
Proof.
  assert (Ht : Py.sum (Sector.values
    (Sector.process_holdings_to_sectors Examples.short_and_long)) = 40).
  { rewrite short_and_long_allocations.
    rewrite sum_values_insert by by simplify_map_eq.
    rewrite sum_values_insert by by simplify_map_eq.
    rewrite values_empty, sum_nil. lra. }
  cbv zeta. split; [|split; [done|]].
  - rewrite short_and_long_allocations.
    rewrite lookup_insert_ne by done. by rewrite lookup_insert_eq.
  - eexists. split; [apply normalize_nonzero_total; lra|].
    rewrite Ht, short_and_long_allocations, !lookup_fmap.
    rewrite lookup_insert_eq.
    rewrite lookup_insert_ne by done. rewrite lookup_insert_eq. simpl.
    split; f_equal; lra.
Qed.

(** The location aggregation, for comparison, leaves its accumulators
    untouched at a percentage that is not positive. *)
Lemma location_skips_nonpositive acc (h : Location.holding) p :
  Py.get_default (Location.portfolio_percentage h) 0 = Some p →
  p <= 0 →
  Location.process_holding acc h = acc.
Proof.
  intros Hp Hle. unfold Location.process_holding. destruct acc as [allocations total].
  rewrite Hp. by destruct (Rle_dec p 0).
Qed.
End SectorClaims.

(** ** Market-cap strings *)

Section SizeFacts.
Local Open Scope string_scope.

Lemma upper_char_idem c : Py.upper_char (Py.upper_char c) = Py.upper_char c.
Proof. by destruct c as [[] [] [] [] [] [] [] []]. Qed.

Lemma upper_char_comma c : Ascii.eqb (Py.upper_char c) "," = Ascii.eqb c ",".
Proof. by destruct c as [[] [] [] [] [] [] [] []]. Qed.

Lemma upper_idem s : Py.upper (Py.upper s) = Py.upper s.
Proof.
  induction s as [|c s IH]; simpl; [done|]. by rewrite upper_char_idem, IH.
Qed.

Lemma upper_empty s : Py.upper s = "" → s = "".
Proof. by destruct s. Qed.

Lemma replace_comma_cons c s :
  Py.replace "," "" (String c s) =
  if Ascii.eqb c "," then Py.replace "," "" s
  else String c (Py.replace "," "" s).
Proof.
  unfold Py.replace.
  cbn [Py.replace_from Py.startswith String.length Nat.pred].
  rewrite (Ascii.eqb_sym "," c).
  destruct (Ascii.eqb c ","); [|done]. by destruct s.
Qed.

Lemma replace_comma_idem s :
  Py.replace "," "" (Py.replace "," "" s) = Py.replace "," "" s.
Proof.
  induction s as [|c s IH]; [done|]. rewrite replace_comma_cons.
  destruct (Ascii.eqb c ",") eqn:Hc; [done|].
  by rewrite replace_comma_cons, Hc, IH.
Qed.

Lemma upper_replace_comma s :
  Py.upper (Py.replace "," "" s) = Py.replace "," "" (Py.upper s).
Proof.
  induction s as [|c s IH]; [done|]. simpl Py.upper.
  rewrite !replace_comma_cons, upper_char_comma.
  destruct (Ascii.eqb c ","); simpl; by rewrite IH.
Qed.

Lemma endswith_app body c : Py.endswith (body ++ String c "") c = true.
Proof.
  induction body as [|b body IH]; simpl; [apply Ascii.eqb_refl|].
  by destruct (body ++ String c "") eqn:?; [destruct body|].
Qed.

Lemma endswith_app_ne body c d :
  c ≠ d → Py.endswith (body ++ String c "") d = false.
Proof.
  intros Hcd. induction body as [|b body IH]; simpl.
  - by apply Ascii.eqb_neq.
  - by destruct (body ++ String c "") eqn:?; [destruct body|].
Qed.

Lemma drop_last_app body c : Py.drop_last (body ++ String c "") = body.
Proof.
  induction body as [|b body IH]; simpl; [done|].
  destruct (body ++ String c "") eqn:Hb; [by destruct body|].
  by rewrite IH.
Qed.

(** The string that [parse_market_cap] examines for a suffix. *)
Lemma cleaned_empty s :
  Py.replace "," "" s = "" →
  Py.strip (Py.replace "," "" (Py.upper s)) = "".
Proof. intros Hs. by rewrite <- upper_replace_comma, Hs. Qed.

Lemma parse_market_cap_cleaned s :
  Size.parse_market_cap (Some s) =
  let cleaned := Py.strip (Py.replace "," "" (Py.upper s)) in
  let '(multiplier, number) :=
    if Py.endswith cleaned "T" then (1000000000000%Q, Py.drop_last cleaned)
    else if Py.endswith cleaned "B" then (1000000000%Q, Py.drop_last cleaned)
    else if Py.endswith cleaned "M" then (1000000%Q, Py.drop_last cleaned)
    else (1%Q, cleaned) in
  match Py.float number with
  | Some x => (x * multiplier)%Q
  | None => 0%Q
  end.
Proof. by destruct s. Qed.
End SizeFacts.

Section SizeClaims.
Local Open Scope string_scope.
Local Open Scope Q_scope.

Lemma ltb_lt x y : Size.ltb x y = true ↔ x < y.
Proof.
  unfold Size.ltb. rewrite negb_true_iff, <- not_true_iff_false, Qle_bool_iff.
  split; [apply Qnot_le_lt | apply Qlt_not_le].
Qed.

Lemma leb_le x y : Size.leb x y = true ↔ x <= y.
Proof. apply Qle_bool_iff. Qed.

Lemma bucket_boundaries (x : Q) :
  (Size.bucket x = Size.MegaCap ↔ 200000000000 < x) ∧
  (Size.bucket x = Size.LargeCap ↔ 10000000000 <= x ∧ x <= 200000000000) ∧
  (Size.bucket x = Size.MidCap ↔ 2000000000 <= x ∧ x < 10000000000) ∧
  (Size.bucket x = Size.SmallCap ↔ 300000000 <= x ∧ x < 2000000000) ∧
  (Size.bucket x = Size.MicroCap ↔ 50000000 <= x ∧ x < 300000000) ∧
  (Size.bucket x = Size.NanoCap ↔ x < 50000000).
Proof.
  unfold Size.bucket.
  repeat match goal with
  | |- context [Size.ltb ?a ?b] =>
      let H := fresh in
      destruct (Size.ltb a b) eqn:H;
      [apply ltb_lt in H | apply not_true_iff_false in H; rewrite ltb_lt in H]
  | |- context [Size.leb ?a ?b] =>
      let H := fresh in
      destruct (Size.leb a b) eqn:H;
      [apply leb_le in H | apply not_true_iff_false in H; rewrite leb_le in H]
  end; simpl;
  repeat split; intros; try discriminate; try done; try lra.
Qed.

Lemma tier_name_inj t1 t2 : Size.tier_name t1 = Size.tier_name t2 → t1 = t2.
Proof. by destruct t1, t2. Qed.

(** C3.  Parsing a market-cap string never raises; it yields 0 for an empty
    or absent string and for a number part that [float] rejects; commas and
    letter case do not change the result; a final T, B or M (after the
    clean-up) multiplies the number before it by 1e12, 1e9 or 1e6, and a
    string without such a suffix is read as it is.  The magnitude falls in
    exactly one tier: Mega-cap above 200e9, Large-cap on [10e9, 200e9],
    Mid-cap on [2e9, 10e9), Small-cap on [300e6, 2e9), Micro-cap on
    [50e6, 300e6) and Nano-cap below; the handler adds 1 to the counter of
    that tier and leaves the five others as they are. *)
Theorem market_cap_classifier (s : string) :
  Size.parse_market_cap None = 0 ∧
  Size.parse_market_cap (Some "") = 0 ∧
  Size.parse_market_cap (Some (Py.replace "," "" s)) =
    Size.parse_market_cap (Some s) ∧
  Size.parse_market_cap (Some (Py.upper s)) = Size.parse_market_cap (Some s) ∧
  (let cleaned := Py.strip (Py.replace "," "" (Py.upper s)) in
   let scaled number multiplier :=
     match Py.float number with
     | Some x => x * multiplier
     | None => 0
     end in
   (∀ body, cleaned = body ++ "T" →
      Size.parse_market_cap (Some s) = scaled body 1000000000000) ∧
   (∀ body, cleaned = body ++ "B" →
      Size.parse_market_cap (Some s) = scaled body 1000000000) ∧
   (∀ body, cleaned = body ++ "M" →
      Size.parse_market_cap (Some s) = scaled body 1000000) ∧
   (Py.endswith cleaned "T" = false → Py.endswith cleaned "B" = false →
    Py.endswith cleaned "M" = false →
      Size.parse_market_cap (Some s) = scaled cleaned 1)) ∧
  (∀ x : Q,
     (Size.bucket x = Size.MegaCap ↔ 200000000000 < x) ∧
     (Size.bucket x = Size.LargeCap ↔ 10000000000 <= x ∧ x <= 200000000000) ∧
     (Size.bucket x = Size.MidCap ↔ 2000000000 <= x ∧ x < 10000000000) ∧
     (Size.bucket x = Size.SmallCap ↔ 300000000 <= x ∧ x < 2000000000) ∧
     (Size.bucket x = Size.MicroCap ↔ 50000000 <= x ∧ x < 300000000) ∧
     (Size.bucket x = Size.NanoCap ↔ x < 50000000)) ∧
  (∀ holdings holding t,
     Size.cap_counts (holdings ++ [holding]) !! Size.tier_name t =
     (λ count, if decide (t = Size.classify holding) then (count + 1)%nat else count)
       <$> Size.cap_counts holdings !! Size.tier_name t).
Proof.
  split; [done|]. split; [done|]. split; [|split; [|split; [|split]]].
  - rewrite (parse_market_cap_cleaned s).
    destruct (Py.replace "," "" s) as [|c r] eqn:Hr.
    + by rewrite (cleaned_empty s Hr).
    + rewrite <- Hr, parse_market_cap_cleaned.
      by rewrite <- !upper_replace_comma, replace_comma_idem.
  - by rewrite !parse_market_cap_cleaned, upper_idem.
  - rewrite parse_market_cap_cleaned.
    intros cleaned scaled. subst scaled. cbv zeta. fold cleaned.
    clearbody cleaned.
    split; [|split; [|split]].
    + intros body ->. by rewrite endswith_app, drop_last_app.
    + intros body ->.
      by rewrite (endswith_app_ne body "B" "T"), endswith_app, drop_last_app.
    + intros body ->.
      by rewrite (endswith_app_ne body "M" "T"), (endswith_app_ne body "M" "B"),
        endswith_app, drop_last_app.
    + by intros -> -> ->.
  - apply bucket_boundaries.
  - intros holdings holding t. unfold Size.cap_counts. rewrite foldl_snoc.
    rewrite lookup_alter. case_decide as Hname.
    + apply tier_name_inj in Hname as <-. by case_decide.
    + case_decide; [congruence|]. by destruct (_ !! _).
Qed.

Lemma market_cap_classifier_witness :
  Size.parse_market_cap (Some "1,234.5m") = 1234.5 * 1000000 ∧
  Size.bucket (1234.5 * 1000000) = Size.SmallCap.
Proof.
  destruct (market_cap_classifier "1,234.5m") as (_ & _ & _ & _ & Hs & Hb & _).
  destruct Hs as (_ & _ & HM & _). split.
  - by rewrite (HM "1234.5" eq_refl).
  - apply (Hb (1234.5 * 1000000)). by vm_compute.
Defined.

(** The other market-cap strings of the specification's examples. *)
Example market_cap_examples :
  Size.bucket (Size.parse_market_cap (Some "5T")) = Size.MegaCap ∧
  Size.bucket (Size.parse_market_cap (Some "1.5B")) = Size.SmallCap ∧
  Size.bucket (Size.parse_market_cap (Some "")) = Size.NanoCap ∧
  Size.bucket (Size.parse_market_cap (Some "garbage")) = Size.NanoCap ∧
  Size.bucket (Size.parse_market_cap (Some "200b")) = Size.LargeCap.
Proof. by vm_compute. Qed.

(** C8 as stated fails: "250B" is not counted as Large-cap. *)
Lemma market_cap_250B_not_large :
  Size.classify {| Size.market_cap := Py.Present "250B" |} ≠ Size.LargeCap.
Proof. by vm_compute. Qed.

(** C8, amended.  "250B" parses to 250,000,000,000, which exceeds
    200,000,000,000, and is counted as Mega-cap. *)
Theorem market_cap_250B_mega :
  Size.parse_market_cap (Some "250B") == 250000000000 ∧
  Size.classify {| Size.market_cap := Py.Present "250B" |} = Size.MegaCap.
Proof. by vm_compute. Qed.
End SizeClaims.

(** ** Weighted scalars and the momentum comparison *)

Section Scalars.
Local Open Scope Q_scope.

Lemma or_zero_get (f : Py.field Q) :
  Momentum.or_zero (Py.get f) == Spec.number_or_zero f.
Proof.
  destruct f as [| |x]; simpl; try reflexivity.
  destruct (Qeq_bool x 0) eqn:Hx; [|reflexivity].
  apply Qeq_bool_iff in Hx. by rewrite Hx.
Qed.

Lemma weighted_trailing_return_from (start : Q) (holdings : list Momentum.holding) :
  foldl
    (λ weighted_trailing_return holding,
       weighted_trailing_return +
       Momentum.or_zero (Py.get (Momentum.trailing_return_1m holding)) *
       (Momentum.or_zero (Py.get (Momentum.portfolio_percentage holding)) / 100))
    start holdings ==
  start +
  Spec.weighted_sum
    (λ h, Spec.number_or_zero (Momentum.portfolio_percentage h))
    (λ h, Spec.number_or_zero (Momentum.trailing_return_1m h)) holdings.
Proof.
  revert start. induction holdings as [|h hs IH]; intros start; simpl.
  - ring.
  - rewrite IH, !or_zero_get. ring.
Qed.

Lemma volatility_from (acc : Volatility.totals) (holdings : list Volatility.holding) :
  Volatility.weighted_beta (foldl Volatility.process_holding acc holdings) ==
    Volatility.weighted_beta acc +
    Spec.weighted_sum
      (λ h, default 0 (Volatility.portfolio_percentage h))
      (λ h, Spec.number_or_zero (Volatility.beta h)) holdings ∧
  Volatility.weighted_sharpe (foldl Volatility.process_holding acc holdings) ==
    Volatility.weighted_sharpe acc +
    Spec.weighted_sum
      (λ h, default 0 (Volatility.portfolio_percentage h))
      (λ h, Spec.number_or_zero (Volatility.sharpe h)) holdings.
Proof.
  revert acc. induction holdings as [|h hs IH]; intros acc; simpl.
  - split; ring.
  - destruct (IH (Volatility.process_holding acc h)) as [-> ->]. simpl.
    rewrite !or_zero_get. split; ring.
Qed.

(** C4.  The weighted beta and the weighted Sharpe ratio of the volatility
    handler and the weighted trailing return of the momentum handler are
    the sum, over all the holdings, of [portfolio_percentage / 100] times
    the metric, where a missing percentage or metric counts as 0 and the
    holding stays in the sum; two holdings of 50 percent with betas 1.2 and
    0.8 give a weighted beta of exactly 1, also when the loop runs on
    binary64 floats. *)
Theorem weighted_scalars
  (volatility_holdings : list Volatility.holding)
  (momentum_holdings : list Momentum.holding) :
  Volatility.weighted_beta (Volatility.lambda_handler volatility_holdings) ==
    Spec.weighted_sum
      (λ h, default 0 (Volatility.portfolio_percentage h))
      (λ h, Spec.number_or_zero (Volatility.beta h)) volatility_holdings ∧
  Volatility.weighted_sharpe (Volatility.lambda_handler volatility_holdings) ==
    Spec.weighted_sum
      (λ h, default 0 (Volatility.portfolio_percentage h))
      (λ h, Spec.number_or_zero (Volatility.sharpe h)) volatility_holdings ∧
  Momentum.weighted_trailing_return momentum_holdings ==
    Spec.weighted_sum
      (λ h, Spec.number_or_zero (Momentum.portfolio_percentage h))
      (λ h, Spec.number_or_zero (Momentum.trailing_return_1m h))
      momentum_holdings ∧
  Volatility.weighted_beta
    (Volatility.lambda_handler
       [Examples.beta_holding 1.2; Examples.beta_holding 0.8]) == 1 ∧
  Binary64.weighted_metric Binary64.two_betas = PrimFloat.one.
Proof.
  split; [|split; [|split; [|split]]].
  - unfold Volatility.lambda_handler.
    destruct (volatility_from
      {| Volatility.weighted_beta := 0; Volatility.weighted_sharpe := 0;
         Volatility.asset_type_count := ∅ |} volatility_holdings) as [-> _].
    simpl. ring.
  - unfold Volatility.lambda_handler.
    destruct (volatility_from
      {| Volatility.weighted_beta := 0; Volatility.weighted_sharpe := 0;
         Volatility.asset_type_count := ∅ |} volatility_holdings) as [_ ->].
    simpl. ring.
  - unfold Momentum.weighted_trailing_return.
    rewrite weighted_trailing_return_from. ring.
  - by vm_compute.
  - by vm_compute.
Qed.

(** C6.  The momentum benchmark is 3.5.  When the weighted trailing return
    is not zero the comparison is
    [(weighted_return - 3.5) / 3.5 * 100]; when it is zero the comparison
    is null: neither a number nor an exception. *)
Theorem momentum_comparison_contract (holdings : list Momentum.holding) :
  let weighted_return := Momentum.weighted_trailing_return holdings in
  let result := Momentum.lambda_handler holdings in
  Momentum.s_p500_momentum result = 3.5 ∧
  Momentum.calculated_weighted_momentum result = weighted_return ∧
  (¬ weighted_return == 0 →
     Momentum.price_momentum_comparison result =
       Some ((weighted_return - 3.5) / 3.5 * 100)) ∧
  (weighted_return == 0 →
     Momentum.price_momentum_comparison result = None).
Proof.
  intros weighted_return result. subst result. unfold Momentum.lambda_handler.
  fold weighted_return. simpl. split; [done|]. split; [done|].
  destruct (Qeq_bool weighted_return 0) eqn:Hz; simpl.
  - apply Qeq_bool_iff in Hz. by split.
  - apply Qeq_bool_neq in Hz. by split.
Qed.

Lemma momentum_comparison_contract_witness :
  Momentum.price_momentum_comparison
    (Momentum.lambda_handler [Examples.momentum_holding 14 50]) =
    Some ((Momentum.weighted_trailing_return [Examples.momentum_holding 14 50]
           - 3.5) / 3.5 * 100) ∧
  Momentum.price_momentum_comparison
    (Momentum.lambda_handler [Examples.momentum_holding 14 0]) = None.
Proof.
  split.
  - apply (momentum_comparison_contract [Examples.momentum_holding 14 50]).
    by vm_compute.
  - apply (momentum_comparison_contract [Examples.momentum_holding 14 0]).
    by vm_compute.
Defined.
End Scalars.

(** ** The result combiner *)

Section Combiner.
Local Open Scope string_scope.
Import ResultCompiler.

Lemma startswith_app prefix s : Py.startswith (prefix ++ s) prefix = true.
Proof.
  induction prefix as [|a prefix IH]; simpl; [done|].
  by rewrite Ascii.eqb_refl, IH.
Qed.

Lemma replace_from_skip t old new s :
  Py.replace_from (String.length t) old new (t ++ s) = Py.replace_from 0 old new s.
Proof. induction t as [|a t IH]; simpl; [done | apply IH]. Qed.

Lemma replace_leading old s :
  old ≠ "" → Py.replace old "" (old ++ s) = Py.replace old "" s.
Proof.
  intros Hold. destruct old as [|a t]; [done|]. unfold Py.replace.
  change (String a t ++ s) with (String a (t ++ s)).
  cbn [Py.replace_from].
  rewrite (startswith_app (String a t) s : Py.startswith (String a (t ++ s)) _ = true).
  cbn [String.length Nat.pred]. by rewrite replace_from_skip.
Qed.

(** The names of the required files survive the removal of the prefix. *)
Lemma replace_required uid f :
  f ∈ required_files →
  Py.replace ("results/" ++ uid ++ "/") "" (("results/" ++ uid ++ "/") ++ f) = f.
Proof.
  intros Hf. rewrite replace_leading by done.
  unfold required_files in Hf.
  repeat (apply elem_of_cons in Hf as [-> | Hf]; [by vm_compute|]).
  by apply elem_of_nil in Hf.
Qed.

Lemma elem_of_list_objects (bucket : gmap string json) prefix key :
  key ∈ list_objects bucket prefix ↔
  is_Some (bucket !! key) ∧ Py.startswith key prefix = true.
Proof.
  unfold list_objects. rewrite list_elem_of_filter, list_elem_of_fmap. split.
  - intros [Hp ([k v] & -> & Hkv)]. split; [|done].
    exists v. by apply elem_of_map_to_list.
  - intros [[v Hv] Hp]. split; [done|]. exists (key, v).
    split; [done | by apply elem_of_map_to_list].
Qed.

Lemma required_file_found (bucket : gmap string json) uid f :
  f ∈ required_files →
  is_Some (bucket !! (("results/" ++ uid ++ "/") ++ f)) →
  f ∈ Py.replace ("results/" ++ uid ++ "/") "" <$>
      list_objects bucket ("results/" ++ uid ++ "/").
Proof.
  intros Hf Hsome. apply list_elem_of_fmap.
  exists (("results/" ++ uid ++ "/") ++ f). split.
  - symmetry. by apply replace_required.
  - apply elem_of_list_objects. split; [done | apply startswith_app].
Qed.

Lemma read_files_absent (bucket : gmap string json) prefix files combined_data :
  (∃ f, f ∈ files ∧ bucket !! (prefix ++ f) = None) →
  ∃ e, read_files bucket prefix files combined_data = inl e.
Proof.
  revert combined_data.
  induction files as [|f files IH]; intros combined_data (g & Hg & Hnone).
  - by apply elem_of_nil in Hg.
  - simpl. destruct (bucket !! (prefix ++ f)) as [content|] eqn:Hf; [|by eexists].
    apply IH. exists g. split; [|done].
    apply elem_of_cons in Hg as [-> | Hg]; [congruence | done].
Qed.

Lemma read_files_error (bucket : gmap string json) prefix files combined_data e :
  read_files bucket prefix files combined_data = inl e →
  ∃ f, f ∈ files ∧ bucket !! (prefix ++ f) = None ∧ e = ErrorReading (prefix ++ f).
Proof.
  revert combined_data. induction files as [|f files IH]; intros combined_data; simpl.
  - done.
  - destruct (bucket !! (prefix ++ f)) eqn:Hf.
    + intros (g & Hg & ?)%IH. exists g. split; [|done]. apply elem_of_cons. by right.
    + intros [= <-]. exists f. split; [|done]. apply elem_of_cons. by left.
Qed.

Lemma filter_ext_elem {A} (P Q : A → Prop)
  `{∀ x, Decision (P x)} `{∀ x, Decision (Q x)} (l : list A) :
  (∀ x, x ∈ l → P x ↔ Q x) → filter P l = filter Q l.
Proof.
  induction l as [|x l IH]; intros Hext; [done|].
  rewrite !filter_cons, IH by (intros; apply Hext; apply elem_of_cons; by right).
  assert (Hx : P x ↔ Q x) by (apply Hext; apply elem_of_cons; by left).
  repeat case_decide; tauto.
Qed.

Lemma filter_nonempty_elem {A} (P : A → Prop) `{∀ x, Decision (P x)} (l : list A) :
  filter P l ≠ [] → ∃ x, x ∈ l ∧ P x.
Proof.
  intros Hne. destruct (filter P l) as [|x l'] eqn:Hf; [done|].
  assert (Hx : x ∈ filter P l) by (rewrite Hf; apply elem_of_cons; by left).
  apply list_elem_of_filter in Hx as [HP Hin]. by exists x.
Qed.

(** C5 as stated fails: with nothing stored under the namespace all five
    results are missing, and the error names the namespace but none of
    them. *)
Lemma combiner_empty_namespace :
  filter (λ f, (∅ : gmap string json) !! ("results/p1/" ++ f) = None)
    required_files = required_files ∧
  lambda_handler ∅ "p1" = inl (NoFilesFound "results/p1/") ∧
  lambda_handler ∅ "p1" ≠ inl (MissingRequiredResultFiles required_files).
Proof. by vm_compute. Qed.

(** C5, amended.  Whenever a required result is absent the handler raises
    and stores nothing.  If no object at all lies under the namespace the
    error is "No files found" for the namespace.  Otherwise, provided that
    no other key of the namespace turns into a required name when the
    prefix is removed from it, the error lists exactly the absent files, in
    the order of the required list; in any case a file that this error
    lists is absent.  When the five results are present the handler stores
    one combined document whose members are the five documents under
    "location_results", "momentum_results", "sector_results",
    "size_results" and "volatility_results". *)
Theorem combiner_contract (bucket : gmap string json) (uid : string) :
  let prefix := "results/" ++ uid ++ "/" in
  let absent := filter (λ f, bucket !! (prefix ++ f) = None) required_files in
  (absent ≠ [] → ∃ e, lambda_handler bucket uid = inl e) ∧
  (list_objects bucket prefix = [] →
     lambda_handler bucket uid = inl (NoFilesFound prefix)) ∧
  (∀ missing_files,
     lambda_handler bucket uid = inl (MissingRequiredResultFiles missing_files) →
     missing_files ≠ [] ∧ missing_files ⊆ absent) ∧
  (absent ≠ [] → list_objects bucket prefix ≠ [] →
   (∀ key f, key ∈ list_objects bucket prefix → f ∈ required_files →
             Py.replace prefix "" key = f → key = prefix ++ f) →
     lambda_handler bucket uid = inl (MissingRequiredResultFiles absent)) ∧
  (∀ location momentum sector size volatility,
     bucket !! (prefix ++ "location_results.json") = Some location →
     bucket !! (prefix ++ "momentum_results.json") = Some momentum →
     bucket !! (prefix ++ "sector_results.json") = Some sector →
     bucket !! (prefix ++ "size_results.json") = Some size →
     bucket !! (prefix ++ "volatility_results.json") = Some volatility →
     lambda_handler bucket uid =
       inr (<[uid ++ "_combined_results.json" :=
               JObject [ ("location_results", location);
                         ("momentum_results", momentum);
                         ("sector_results", sector);
                         ("size_results", size);
                         ("volatility_results", volatility) ]]> bucket)).
Proof.
  intros prefix absent.
  assert (Hmissing : ∀ f, f ∈ filter (λ f, f ∉ Py.replace prefix "" <$>
            list_objects bucket prefix) required_files → f ∈ absent).
  { intros f [Hnot Hf]%list_elem_of_filter. apply list_elem_of_filter.
    split; [|done]. destruct (bucket !! (prefix ++ f)) eqn:Hb; [|done].
    destruct Hnot. by apply required_file_found. }
  split; [|split; [|split; [|split]]].
  - intros (f & Hf & Hnone)%filter_nonempty_elem. unfold lambda_handler.
    fold prefix. destruct (list_objects bucket prefix); [by eexists|].
    destruct (filter (λ f, f ∉ _) required_files); [|by eexists].
    destruct (read_files_absent bucket prefix required_files [])
      as [e ->]; by eauto.
  - intros Hnil. unfold lambda_handler. fold prefix. by rewrite Hnil.
  - intros missing_files. unfold lambda_handler. fold prefix.
    revert Hmissing. generalize (filter (λ f, f ∉ Py.replace prefix "" <$>
      list_objects bucket prefix) required_files). intros missing Hmissing.
    destruct (list_objects bucket prefix); [done|].
    destruct missing as [|f fs].
    + destruct (read_files _ _ _ _) as [e|] eqn:Hr; [|done].
      apply read_files_error in Hr as (g & _ & _ & ->). done.
    + intros [= <-]. split; [done|]. intros g Hg. by apply Hmissing.
  - intros Habsent Hlisted Hclean. unfold lambda_handler. fold prefix.
    assert (Heq : filter (λ f, f ∉ Py.replace prefix "" <$>
              list_objects bucket prefix) required_files = absent).
    { apply filter_ext_elem. intros f Hf. split.
      - intros Hnot. destruct (bucket !! (prefix ++ f)) eqn:Hb; [|done].
        destruct Hnot. by apply required_file_found.
      - intros Hnone (key & Hkey & Hin)%list_elem_of_fmap.
        rewrite (Hclean key f Hin Hf) in Hin by done.
        apply elem_of_list_objects in Hin as [[? Hsome] _]. congruence. }
    rewrite Heq. destruct (list_objects bucket prefix); [done|].
    by destruct absent.
  - intros location momentum sector size volatility H1 H2 H3 H4 H5.
    unfold lambda_handler. fold prefix.
    assert (Hin : prefix ++ "location_results.json" ∈ list_objects bucket prefix).
    { apply elem_of_list_objects. split; [by eexists | apply startswith_app]. }
    revert Hmissing. generalize (filter (λ f, f ∉ Py.replace prefix "" <$>
      list_objects bucket prefix) required_files). intros missing Hmissing.
    destruct (list_objects bucket prefix); [by apply elem_of_nil in Hin|].
    clear Hin. destruct missing as [|f fs].
    + unfold required_files, read_files. rewrite H1, H2, H3, H4, H5. done.
    + assert (Hin : f ∈ absent).
      { apply Hmissing. apply elem_of_cons. by left. }
      apply list_elem_of_filter in Hin as [Hnone Hreq].
      unfold required_files in Hreq.
      repeat (apply elem_of_cons in Hreq as [-> | Hreq]; [congruence|]).
      by apply elem_of_nil in Hreq.
Qed.

Lemma combiner_contract_witness :
  lambda_handler Examples.size_only "p1" =
  inl (MissingRequiredResultFiles
         [ "location_results.json"; "momentum_results.json";
           "sector_results.json"; "volatility_results.json" ]).
Proof.
  destruct (combiner_contract Examples.size_only "p1") as (_ & _ & _ & Hm & _).
  apply Hm.
  - by vm_compute.
  - by vm_compute.
  - intros key f Hkey Hf Hr.
    change (list_objects Examples.size_only ("results/" ++ "p1" ++ "/"))
      with ["results/p1/size_results.json"] in Hkey.
    apply list_elem_of_singleton in Hkey. subst key. by vm_compute in Hr; subst f.
Defined.
End Combiner.
